(** * Column factory of py-polars: [polars/functions/col.py]

    A shallow embedding of [ColumnFactory.__call__] and
    [ColumnFactory.__getattr__], the argument normalisation that turns a
    name, a data type or an iterable of either into a call of one of the
    native column constructors, together with the properties the
    specification states about it. *)

From Stdlib Require Import String Ascii List ZArith.
Import ListNotations.
Local Open Scope string_scope.
Set Warnings "-register-all".

(** ** Data types used in examples

    The three data types the docstring of [__call__] itself passes to
    [col]: [pl.Utf8], [pl.Int64], [pl.Float64].  They instantiate the
    abstract type of data types at concrete inputs. *)
Inductive DocDataType : Type :=
| Utf8
| Int64
| Float64.

(** Each of them is a class whose metaclass is [DataTypeClass]. *)
Definition doc_dtype_type_name (d : DocDataType) : string :=
  match d with
  | Utf8 | Int64 | Float64 => "DataTypeClass"
  end.

(** ** Results

    [__call__] either returns the wrapped native expression or raises
    [TypeError]. *)
Inductive exception : Type :=
| TypeError (msg : string).

Inductive result (A : Type) : Type :=
| Return (a : A)
| Raise (e : exception).

Arguments Return {A} a.
Arguments Raise {A} e.

Section ColumnFactory.

(** The values [is_polars_dtype] accepts.  The module [polars.datatypes]
    is not part of the file; the factory only ever tests membership and
    forwards such values, so the type is kept abstract. *)
Variable DataType : Type.

(** [type(d).__name__] of a data type value ([DataTypeClass] for a class
    such as [pl.Int64], the class name for an instance such as
    [pl.List(pl.Int64)]).  No error path of the factory reaches it. *)
Variable dtype_type_name : DataType -> string.

(** ** Python values reaching [col]

    The factory dispatches on the run-time class of its arguments:
    [isinstance(_, str)], [is_polars_dtype(_)], [isinstance(_, Iterable)],
    and it prints [type(_).__name__].  [PyObject cls iter] stands for an
    object of any other class [cls]; [iter] is [Some items] when the
    object is an [Iterable], with [items] what [list(_)] collects. *)
Inductive pyval : Type :=
| PyStr (s : string)
| PyDtype (d : DataType)
| PyInt (n : Z)
| PyNone
| PyList (items : list pyval)
| PyTuple (items : list pyval)
| PyObject (cls : string) (iter : option (list pyval)).

(** [isinstance(v, str)] *)
Definition isinstance_str (v : pyval) : bool :=
  match v with
  | PyStr _ => true
  | _ => false
  end.

(** Modelled from the spec: [is_polars_dtype] is imported from
    [polars.datatypes], which is not in the file.  The spec's "[primary]
    is a data type" is the test it stands for: true exactly on data type
    values. *)
Definition is_polars_dtype (v : pyval) : bool :=
  match v with
  | PyDtype _ => true
  | _ => false
  end.

(** The one-character strings a [str] yields when iterated. *)
Fixpoint str_chars (s : string) : list pyval :=
  match s with
  | EmptyString => []
  | String c s' => PyStr (String c EmptyString) :: str_chars s'
  end.

(** [isinstance(v, Iterable)] together with [list(v)]: [None] when [v] is
    not an [Iterable], otherwise the materialised items in order.  A
    [str] is an [Iterable] of its characters; a data type is tested
    before this point in [__call__] and is taken as not iterable. *)
Definition iter_list (v : pyval) : option (list pyval) :=
  match v with
  | PyStr s => Some (str_chars s)
  | PyDtype _ => None
  | PyInt _ => None
  | PyNone => None
  | PyList items => Some items
  | PyTuple items => Some items
  | PyObject _ iter => iter
  end.

(** [type(v).__name__] *)
Definition type_name (v : pyval) : string :=
  match v with
  | PyStr _ => "str"
  | PyDtype d => dtype_type_name d
  | PyInt _ => "int"
  | PyNone => "NoneType"
  | PyList _ => "list"
  | PyTuple _ => "tuple"
  | PyObject cls _ => cls
  end.

(** [f"{s!r}"] for a class name: an identifier has nothing to escape, so
    its [repr] is the name between single quotes. *)
Definition repr (s : string) : string := "'" ++ s ++ "'".

(** The line feed of the ["\n\n"] in the messages. *)
Definition LF : string := String (ascii_of_nat 10) EmptyString.

(** Modelled from the spec: the native module [polars.polars] ([plr]) is
    not in the file.  A [PyExpr] records which native constructor was
    called and with which argument: [plr.col(name)], [plr.cols(names)] or
    [plr.dtype_cols(dtypes)].  The arguments are the Python objects as
    [__call__] built them; nothing at this layer checks the later
    elements of a list. *)
Inductive PyExpr : Type :=
| plr_col (name : pyval)
| plr_cols (names : list pyval)
| plr_dtype_cols (dtypes : list pyval).

(** Modelled from the spec: [wrap_expr] ([polars.utils._wrap]) is not in
    the file; it wraps the native handle in an [Expr] and does nothing
    else. *)
Record Expr : Type := wrap_expr { _pyexpr : PyExpr }.

(** Truth value of a tuple: [if more_names:]. *)
Definition truthy {A : Type} (xs : list A) : bool :=
  match xs with
  | [] => false
  | _ :: _ => true
  end.

(** The three messages [__call__] raises, lines 194-197, 214-218 and
    220-223. *)
Definition msg_more_names (name : pyval) : string :=
  "invalid input for `col`"
  ++ LF ++ LF ++ "Expected `str` or `DataType`, got "
  ++ repr (type_name name) ++ ".".

Definition msg_iterable (item : pyval) : string :=
  "invalid input for `col`"
  ++ LF ++ LF ++ "Expected iterable of type `str` or `DataType`,"
  ++ " got iterable of type " ++ repr (type_name item).

Definition msg_single (name : pyval) : string :=
  "invalid input for `col`"
  ++ LF ++ LF ++ "Expected `str` or `DataType`, got "
  ++ repr (type_name name).

(** ** [ColumnFactory.__call__(self, name, *more_names)]

    Lines 184-223, branch for branch; [if not names] and [names[0]] are
    the two cases of the match on the materialised list. *)
Definition __call__ (name : pyval) (more_names : list pyval) : result Expr :=
  if truthy more_names then
    if isinstance_str name then
      let names_str := ([name] ++ more_names)%list in
      Return (wrap_expr (plr_cols names_str))
    else if is_polars_dtype name then
      let dtypes := ([name] ++ more_names)%list in
      Return (wrap_expr (plr_dtype_cols dtypes))
    else
      Raise (TypeError (msg_more_names name))
  else if isinstance_str name then
    Return (wrap_expr (plr_col name))
  else if is_polars_dtype name then
    Return (wrap_expr (plr_dtype_cols [name]))
  else
    match iter_list name with
    | Some names =>
        match names with
        | [] => Return (wrap_expr (plr_cols names))
        | item :: _ =>
            if isinstance_str item then
              Return (wrap_expr (plr_cols names))
            else if is_polars_dtype item then
              Return (wrap_expr (plr_dtype_cols names))
            else
              Raise (TypeError (msg_iterable item))
        end
    | None => Raise (TypeError (msg_single name))
    end.

(** ** [ColumnFactory.__getattr__(self, name)]

    Line 258.  Python passes the attribute name, always a [str]. *)
Definition __getattr__ (name : string) : Expr :=
  wrap_expr (plr_col (PyStr name)).

(** ** The specification's view of the result *)

(** Modelled from the spec: the canonical [ColumnSelector] of section 3.
    The sequences hold the items as they were passed, since the factory
    forwards them unchecked. *)
Inductive ColumnSelector : Type :=
| ByName (names : list pyval)
| ByPattern (pattern : string)
| ByType (types : list pyval)
| Wildcard.

(** Modelled from the spec: which selector a native call stands for.
    Rule 2 reads [plr.col(name)] as [ByName([name])]; [plr.cols] and
    [plr.dtype_cols] carry their list.  The source tags neither
    wildcards nor patterns, so [ByPattern] and [Wildcard] are never
    produced. *)
Definition selector_of (e : Expr) : ColumnSelector :=
  match _pyexpr e with
  | plr_col name => ByName [name]
  | plr_cols names => ByName names
  | plr_dtype_cols dtypes => ByType dtypes
  end.

(** Modelled from the spec: the engine boundary of section 6 and its
    one-line dispatch, [ByName]/[Wildcard]/[ByPattern] to
    [constructNameSelector], [ByType] to [constructTypeSelector]. *)
Inductive ExpressionHandle : Type :=
| constructNameSelector (names : list pyval)
| constructTypeSelector (types : list pyval).

Definition dispatch (sel : ColumnSelector) : ExpressionHandle :=
  match sel with
  | ByName names => constructNameSelector names
  | ByPattern pattern => constructNameSelector [PyStr pattern]
  | Wildcard => constructNameSelector [PyStr "*"]
  | ByType types => constructTypeSelector types
  end.

(** The spec's [build(primary, extra)]: [__call__] read through
    [selector_of].  Its [InvalidSelectorInput] is the [TypeError] the
    source raises. *)
Definition build (primary : pyval) (extra : list pyval)
  : result ColumnSelector :=
  match __call__ primary extra with
  | Return e => Return (selector_of e)
  | Raise exc => Raise exc
  end.

(** The spec's [byAttribute(name)]. *)
Definition byAttribute (name : string) : ColumnSelector :=
  selector_of (__getattr__ name).

(** [msg] shows [part] somewhere in its text. *)
Definition mentions (msg part : string) : Prop :=
  exists pre post, msg = pre ++ part ++ post.

(** ** Properties *)

Lemma append_empty_r (s : string) : s ++ "" = s.
Proof.
  induction s as [| c s IH]; simpl; [reflexivity | now rewrite IH].
Qed.

Lemma truthy_true {A : Type} (xs : list A) : xs <> [] -> truthy xs = true.
Proof.
  destruct xs as [| x xs]; [intros H; now contradiction H | reflexivity].
Qed.

(** The three branches taken when [more_names] is not empty. *)
Lemma call_more_str (name : pyval) (more_names : list pyval) :
  more_names <> [] -> isinstance_str name = true ->
  __call__ name more_names = Return (wrap_expr (plr_cols (name :: more_names))).
Proof.
  intros Hmore Hstr. unfold __call__.
  now rewrite (truthy_true more_names Hmore), Hstr.
Qed.

Lemma call_more_dtype (name : pyval) (more_names : list pyval) :
  more_names <> [] -> is_polars_dtype name = true ->
  __call__ name more_names
  = Return (wrap_expr (plr_dtype_cols (name :: more_names))).
Proof.
  intros Hmore Hdt. unfold __call__.
  rewrite (truthy_true more_names Hmore), Hdt.
  destruct name; try discriminate Hdt; reflexivity.
Qed.

Lemma call_more_other (name : pyval) (more_names : list pyval) :
  more_names <> [] ->
  isinstance_str name = false -> is_polars_dtype name = false ->
  __call__ name more_names = Raise (TypeError (msg_more_names name)).
Proof.
  intros Hmore Hstr Hdt. unfold __call__.
  now rewrite (truthy_true more_names Hmore), Hstr, Hdt.
Qed.

(** The branches taken for a sole argument that is an iterable, neither a
    [str] nor a data type. *)
Lemma call_iterable (name : pyval) (names : list pyval) :
  isinstance_str name = false -> is_polars_dtype name = false ->
  iter_list name = Some names ->
  __call__ name []
  = match names with
    | [] => Return (wrap_expr (plr_cols names))
    | item :: _ =>
        if isinstance_str item then Return (wrap_expr (plr_cols names))
        else if is_polars_dtype item
             then Return (wrap_expr (plr_dtype_cols names))
             else Raise (TypeError (msg_iterable item))
    end.
Proof.
  intros Hstr Hdt Hit. unfold __call__. simpl truthy. cbv iota.
  now rewrite Hstr, Hdt, Hit.
Qed.

Lemma build_Return (primary : pyval) (extra : list pyval) (e : Expr) :
  __call__ primary extra = Return e ->
  build primary extra = Return (selector_of e).
Proof. intros H. unfold build. now rewrite H. Qed.

Lemma build_Raise (primary : pyval) (extra : list pyval) (exc : exception) :
  __call__ primary extra = Raise exc -> build primary extra = Raise exc.
Proof. intros H. unfold build. now rewrite H. Qed.

(** The type name is part of each message. *)
Lemma msg_more_names_mentions (name : pyval) :
  mentions (msg_more_names name) (repr (type_name name)).
Proof.
  exists ("invalid input for `col`" ++ LF ++ LF
          ++ "Expected `str` or `DataType`, got "), ".".
  reflexivity.
Qed.

Lemma msg_iterable_mentions (item : pyval) :
  mentions (msg_iterable item) (repr (type_name item)).
Proof.
  exists ("invalid input for `col`" ++ LF ++ LF
          ++ "Expected iterable of type `str` or `DataType`,"
          ++ " got iterable of type "), "".
  now rewrite append_empty_r.
Qed.

Lemma msg_single_mentions (name : pyval) :
  mentions (msg_single name) (repr (type_name name)).
Proof.
  exists ("invalid input for `col`" ++ LF ++ LF
          ++ "Expected `str` or `DataType`, got "), "".
  now rewrite append_empty_r.
Qed.

(** For a single name the two call shapes reach different native
    constructors, [plr.col] and [plr.cols]; they meet only in the
    selector they stand for. *)
Remark single_name_native_calls_differ (s : string) :
  __call__ (PyStr s) [] <> __call__ (PyList [PyStr s]) []
  /\ build (PyStr s) [] = build (PyList [PyStr s]) [].
Proof. split; [discriminate | reflexivity]. Qed.

(** A [str] is itself an iterable, but it is taken as one name, never
    as the sequence of its characters. *)
Remark str_is_not_unpacked :
  iter_list (PyStr "ab") = Some [PyStr "a"; PyStr "b"]
  /\ build (PyStr "ab") [] = Return (ByName [PyStr "ab"])
  /\ build (PyStr "") [] = Return (ByName [PyStr ""]).
Proof. repeat split. Qed.

(** ** The claims of the specification *)

(** C1.  For a non-empty sequence of strings [s :: rest], the call with
    [s] as [name] and [rest] as [more_names], and the call with the whole
    sequence as one iterable [v] (a list, a tuple or any other iterable
    that is not itself a [str] or a data type), both give the selector
    [ByName] of the sequence, in the same order; [rest] may be empty. *)
Theorem names_positional_and_iterable_agree
  (s : string) (rest : list string) (v : pyval) :
  isinstance_str v = false -> is_polars_dtype v = false ->
  iter_list v = Some (map PyStr (s :: rest)) ->
  build (PyStr s) (map PyStr rest) = Return (ByName (map PyStr (s :: rest)))
  /\ build v [] = Return (ByName (map PyStr (s :: rest))).
Proof.
  intros Hstr Hdt Hit. split.
  - destruct rest as [| r rest]; [reflexivity |].
    apply (build_Return _ _ (wrap_expr (plr_cols _))).
    apply call_more_str; [discriminate | reflexivity].
  - apply (build_Return _ _ (wrap_expr (plr_cols _))).
    now rewrite (call_iterable v _ Hstr Hdt Hit).
Qed.

(** C2.  For a string [name] and a non-empty tuple [more_names], the
    factory calls [plr.cols] on [name] followed by the items of
    [more_names] in the order given, none dropped or merged: the selector
    is [ByName] of that list. *)
Theorem str_with_more_names (s : string) (more_names : list pyval) :
  more_names <> [] ->
  __call__ (PyStr s) more_names
  = Return (wrap_expr (plr_cols (PyStr s :: more_names)))
  /\ build (PyStr s) more_names = Return (ByName (PyStr s :: more_names)).
Proof.
  intros Hmore.
  assert (H : __call__ (PyStr s) more_names
              = Return (wrap_expr (plr_cols (PyStr s :: more_names))))
    by (apply call_more_str; [exact Hmore | reflexivity]).
  split; [exact H | exact (build_Return _ _ _ H)].
Qed.

(** C3.  For a non-empty sequence of data types [d :: rest], the call
    with [d] as [name] and [rest] as [more_names], and the call with the
    whole sequence as one iterable [v], both give [plr.dtype_cols] of the
    sequence, hence the selector [ByType] of it, in the same order. *)
Theorem dtypes_positional_and_iterable_agree
  (d : DataType) (rest : list DataType) (v : pyval) :
  isinstance_str v = false -> is_polars_dtype v = false ->
  iter_list v = Some (map PyDtype (d :: rest)) ->
  __call__ (PyDtype d) (map PyDtype rest) = __call__ v []
  /\ build (PyDtype d) (map PyDtype rest)
     = Return (ByType (map PyDtype (d :: rest)))
  /\ build v [] = Return (ByType (map PyDtype (d :: rest))).
Proof.
  intros Hstr Hdt Hit.
  assert (Hv : __call__ v []
               = Return (wrap_expr (plr_dtype_cols (map PyDtype (d :: rest)))))
    by now rewrite (call_iterable v _ Hstr Hdt Hit).
  assert (Hd : __call__ (PyDtype d) (map PyDtype rest)
               = Return (wrap_expr (plr_dtype_cols (map PyDtype (d :: rest))))).
  { destruct rest as [| r rest]; [reflexivity |].
    apply call_more_dtype; [discriminate | reflexivity]. }
  repeat split.
  - now rewrite Hd, Hv.
  - exact (build_Return _ _ _ Hd).
  - exact (build_Return _ _ _ Hv).
Qed.

(** C4.  An empty iterable passed as the sole argument gives
    [plr.cols([])], the selector [ByName] of the empty sequence; no
    exception is raised. *)
Theorem empty_iterable_selects_nothing (v : pyval) :
  isinstance_str v = false -> is_polars_dtype v = false ->
  iter_list v = Some [] ->
  __call__ v [] = Return (wrap_expr (plr_cols []))
  /\ build v [] = Return (ByName []).
Proof.
  intros Hstr Hdt Hit.
  assert (H : __call__ v [] = Return (wrap_expr (plr_cols [])))
    by now rewrite (call_iterable v _ Hstr Hdt Hit).
  split; [exact H | exact (build_Return _ _ _ H)].
Qed.

(** C5.  The single string ["*"] with no further argument is forwarded
    as a plain name: the selector is [ByName ["*"]], neither [Wildcard]
    nor [ByPattern], the dispatch sends it to [constructNameSelector]
    with the one-element sequence ["*"], and every other single string,
    by call or by attribute, is treated the same way. *)
Theorem wildcard_is_a_plain_name :
  __call__ (PyStr "*") [] = Return (wrap_expr (plr_col (PyStr "*")))
  /\ (exists sel,
         build (PyStr "*") [] = Return sel
         /\ sel = ByName [PyStr "*"]
         /\ dispatch sel = constructNameSelector [PyStr "*"])
  /\ (forall s : string,
         build (PyStr s) [] = Return (ByName [PyStr s])
         /\ byAttribute s = ByName [PyStr s]
         /\ dispatch (ByName [PyStr s]) = constructNameSelector [PyStr s]).
Proof.
  split; [reflexivity | split].
  - exists (ByName [PyStr "*"]). repeat split.
  - intros s. repeat split.
Qed.

(** C6.  For every string [name], [__getattr__] returns exactly what
    [__call__] returns for that single string: [plr.col(name)], the
    selector [ByName [name]], whatever the string looks like. *)
Theorem getattr_is_call (name : string) :
  __call__ (PyStr name) [] = Return (__getattr__ name)
  /\ __getattr__ name = wrap_expr (plr_col (PyStr name))
  /\ build (PyStr name) [] = Return (byAttribute name)
  /\ byAttribute name = ByName [PyStr name].
Proof. repeat split. Qed.

(** C7.  With at least one item in [more_names] and a [name] that is
    neither a [str] nor a data type, the factory raises its [TypeError]
    and returns nothing; this is so in particular for a list, whose
    class name the message shows. *)
Theorem more_names_need_str_or_dtype
  (name : pyval) (more_names items : list pyval) :
  more_names <> [] ->
  isinstance_str name = false -> is_polars_dtype name = false ->
  __call__ name more_names = Raise (TypeError (msg_more_names name))
  /\ build name more_names = Raise (TypeError (msg_more_names name))
  /\ build (PyList items) more_names
     = Raise (TypeError (msg_more_names (PyList items)))
  /\ mentions (msg_more_names (PyList items)) "'list'".
Proof.
  intros Hmore Hstr Hdt.
  pose proof (call_more_other name more_names Hmore Hstr Hdt) as H.
  pose proof (call_more_other (PyList items) more_names Hmore
                eq_refl eq_refl) as HL.
  repeat split.
  - exact H.
  - exact (build_Raise _ _ _ H).
  - exact (build_Raise _ _ _ HL).
  - exact (msg_more_names_mentions (PyList items)).
Qed.

(** C8.  A non-empty iterable passed as the sole argument whose first
    item is neither a [str] nor a data type makes the factory raise its
    [TypeError]; the message shows the class name of that first item. *)
Theorem iterable_first_item_invalid (v item : pyval) (rest : list pyval) :
  isinstance_str v = false -> is_polars_dtype v = false ->
  iter_list v = Some (item :: rest) ->
  isinstance_str item = false -> is_polars_dtype item = false ->
  __call__ v [] = Raise (TypeError (msg_iterable item))
  /\ build v [] = Raise (TypeError (msg_iterable item))
  /\ mentions (msg_iterable item) (repr (type_name item)).
Proof.
  intros Hstr Hdt Hit Histr Hidt.
  assert (H : __call__ v [] = Raise (TypeError (msg_iterable item)))
    by now rewrite (call_iterable v _ Hstr Hdt Hit), Histr, Hidt.
  repeat split.
  - exact H.
  - exact (build_Raise _ _ _ H).
  - apply msg_iterable_mentions.
Qed.

(** C9.  A sole argument that is not a [str], not a data type and not an
    iterable makes the factory raise its [TypeError]; the message shows
    the class name of the argument. *)
Theorem single_argument_invalid (v : pyval) :
  isinstance_str v = false -> is_polars_dtype v = false ->
  iter_list v = None ->
  __call__ v [] = Raise (TypeError (msg_single v))
  /\ build v [] = Raise (TypeError (msg_single v))
  /\ mentions (msg_single v) (repr (type_name v)).
Proof.
  intros Hstr Hdt Hit.
  assert (H : __call__ v [] = Raise (TypeError (msg_single v))).
  { unfold __call__. simpl truthy. cbv iota. now rewrite Hstr, Hdt, Hit. }
  repeat split.
  - exact H.
  - exact (build_Raise _ _ _ H).
  - apply msg_single_mentions.
Qed.

(** C10.  Only [name], or the first item of the iterable, decides the
    kind of selector.  Whatever the later items [more_names] and [rest]
    are, a [str] [name] with [more_names] gives [ByName] of the whole
    list, an iterable starting with a [str] gives [ByName] of all its
    items, and an iterable starting with a data type gives [ByType] of
    all its items; none of these calls raises. *)
Theorem first_item_decides
  (s : string) (d : DataType) (more_names rest : list pyval) (v w : pyval) :
  more_names <> [] ->
  isinstance_str v = false -> is_polars_dtype v = false ->
  iter_list v = Some (PyStr s :: rest) ->
  isinstance_str w = false -> is_polars_dtype w = false ->
  iter_list w = Some (PyDtype d :: rest) ->
  build (PyStr s) more_names = Return (ByName (PyStr s :: more_names))
  /\ build v [] = Return (ByName (PyStr s :: rest))
  /\ build w [] = Return (ByType (PyDtype d :: rest)).
Proof.
  intros Hmore Hvs Hvd Hvi Hws Hwd Hwi. repeat split.
  - apply (build_Return _ _ (wrap_expr (plr_cols _))).
    apply call_more_str; [exact Hmore | reflexivity].
  - apply (build_Return _ _ (wrap_expr (plr_cols _))).
    now rewrite (call_iterable v _ Hvs Hvd Hvi).
  - apply (build_Return _ _ (wrap_expr (plr_dtype_cols _))).
    now rewrite (call_iterable w _ Hws Hwd Hwi).
Qed.

(** ** Further properties of [__call__]

    What the branches of lines 184-223 imply beyond the claims: which
    native constructor can be reached with which list, exactly when the
    call raises, and how the two call shapes relate for mixed items. *)


Lemma isinstance_str_inv (v : pyval) :
  isinstance_str v = true -> exists s, v = PyStr s.
Proof. destruct v; try discriminate; intros _; eauto. Qed.

Lemma is_polars_dtype_inv (v : pyval) :
  is_polars_dtype v = true -> exists d, v = PyDtype d.
Proof. destruct v; try discriminate; intros _; eauto. Qed.

Lemma str_not_dtype (v : pyval) :
  isinstance_str v = true -> is_polars_dtype v = true -> False.
Proof. destruct v; discriminate. Qed.

Lemma str_chars_nil (s : string) : str_chars s = [] -> s = "".
Proof. destruct s; [reflexivity | discriminate]. Qed.

(** Splits a goal about [__call__ name more_names] into the branches of
    the source, keeping the outcome of each test as a hypothesis. *)
Ltac call_branches name more_names :=
  unfold __call__;
  destruct more_names as [| ?m ?more]; simpl truthy; cbv iota;
  destruct (isinstance_str name) eqn:?Hstr;
  destruct (is_polars_dtype name) eqn:?Hdt;
  try (exfalso; eapply (str_not_dtype name); eassumption);
  try match goal with
      | |- context [iter_list name] =>
          destruct (iter_list name) as [[| ?item ?rest] |] eqn:?Hit;
          try (destruct (isinstance_str item) eqn:?Histr;
               destruct (is_polars_dtype item) eqn:?Hidt;
               try (exfalso; eapply (str_not_dtype item); eassumption))
      end.

(** Names the [str] or the data type behind a successful test. *)
Ltac name_tested :=
  repeat match goal with
         | H : isinstance_str ?v = true |- _ =>
             is_var v; destruct (isinstance_str_inv v H) as [? ->]; clear H
         | H : is_polars_dtype ?v = true |- _ =>
             is_var v; destruct (is_polars_dtype_inv v H) as [? ->]; clear H
         end.

(** X1.  A data type as [name] with a non-empty [more_names] gives
    [plr.dtype_cols] of [name] followed by the items of [more_names],
    whatever those items are. *)
Theorem dtype_with_more_names (d : DataType) (more_names : list pyval) :
  more_names <> [] ->
  __call__ (PyDtype d) more_names
  = Return (wrap_expr (plr_dtype_cols (PyDtype d :: more_names))).
Proof. intros Hmore. now apply call_more_dtype. Qed.

(** X2.  [__call__] raises exactly when [name] is neither a [str] nor a
    data type and, in addition, either [more_names] is not empty, or
    [name] is not an iterable, or [name] is a non-empty iterable whose
    first item is neither a [str] nor a data type. *)
Theorem call_raises_iff (name : pyval) (more_names : list pyval) :
  (exists exc, __call__ name more_names = Raise exc)
  <-> isinstance_str name = false /\ is_polars_dtype name = false
      /\ (more_names <> []
          \/ iter_list name = None
          \/ exists item rest,
               iter_list name = Some (item :: rest)
               /\ isinstance_str item = false
               /\ is_polars_dtype item = false).
Proof.
  split.
  - intros [exc H]. revert H.
    call_branches name more_names; intros H; try discriminate H;
      repeat split;
      solve [ left; discriminate
            | right; left; reflexivity
            | right; right; do 2 eexists; repeat split; eassumption ].
  - intros (Hs & Hd & Hcase).
    call_branches name more_names; try congruence;
      try (eexists; reflexivity); exfalso;
      destruct Hcase as [H | [H | (i & r & H & Hi & Hi')]]; congruence.
Qed.

(** X3.  [plr.col] is reached only by a single [str]: if the call
    returns [plr.col(n)], then [more_names] is empty and [n] is [name]
    itself, a [str]. *)
Theorem plr_col_only_for_single_str
  (name n : pyval) (more_names : list pyval) :
  __call__ name more_names = Return (wrap_expr (plr_col n)) ->
  more_names = [] /\ n = name /\ isinstance_str name = true.
Proof.
  call_branches name more_names; intros H; try discriminate H;
    injection H as <-; repeat split.
Qed.

(** X4.  [plr.dtype_cols] never receives an empty list: whenever the
    call returns [plr.dtype_cols(dtypes)], [dtypes] starts with a data
    type. *)
Theorem dtype_cols_head_is_dtype
  (name : pyval) (more_names dtypes : list pyval) :
  __call__ name more_names = Return (wrap_expr (plr_dtype_cols dtypes)) ->
  exists d rest, dtypes = PyDtype d :: rest.
Proof.
  call_branches name more_names; intros H; try discriminate H;
    injection H as <-; name_tested; do 2 eexists; reflexivity.
Qed.

(** X5.  Whenever the call returns [plr.cols(names)], [names] starts
    with a [str], unless it is empty, which happens only for an empty
    iterable passed alone. *)
Theorem cols_head_is_str_or_empty
  (name : pyval) (more_names names : list pyval) :
  __call__ name more_names = Return (wrap_expr (plr_cols names)) ->
  (names = [] /\ more_names = [] /\ iter_list name = Some [])
  \/ exists s rest, names = PyStr s :: rest.
Proof.
  call_branches name more_names; intros H; try discriminate H;
    injection H as <-; name_tested;
    solve [ left; repeat split; reflexivity
          | right; do 2 eexists; reflexivity ].
Qed.

(** X6.  The list handed to [plr.cols] or [plr.dtype_cols] is the input,
    untouched: it is [name] followed by [more_names], or the one-element
    list of [name], or the items of the iterable [name] in their order. *)
Theorem returned_list_is_the_input
  (name : pyval) (more_names l : list pyval) :
  __call__ name more_names = Return (wrap_expr (plr_cols l))
  \/ __call__ name more_names = Return (wrap_expr (plr_dtype_cols l)) ->
  (more_names <> [] /\ l = name :: more_names)
  \/ (more_names = [] /\ (l = [name] \/ iter_list name = Some l)).
Proof.
  call_branches name more_names; intros [H | H]; try discriminate H;
    injection H as <-;
    solve [ right; split; [reflexivity | right; reflexivity]
          | right; split; [reflexivity | left; reflexivity]
          | left; split; [discriminate | reflexivity] ].
Qed.

(** X7.  For an iterable passed alone, only the items count: two
    iterables, neither a [str] nor a data type, that yield the same
    items give the same result, be they lists, tuples or anything else. *)
Theorem iterable_kind_irrelevant (v w : pyval) (items : list pyval) :
  isinstance_str v = false -> is_polars_dtype v = false ->
  iter_list v = Some items ->
  isinstance_str w = false -> is_polars_dtype w = false ->
  iter_list w = Some items ->
  __call__ v [] = __call__ w [].
Proof.
  intros Hvs Hvd Hvi Hws Hwd Hwi.
  now rewrite (call_iterable v items Hvs Hvd Hvi),
              (call_iterable w items Hws Hwd Hwi).
Qed.

(** X8.  With two or more arguments whose first is a [str] or a data
    type, passing them positionally or as one list makes the same native
    call, whatever the later arguments are. *)
Theorem positional_and_list_same_native_call
  (x : pyval) (rest : list pyval) :
  rest <> [] ->
  isinstance_str x = true \/ is_polars_dtype x = true ->
  __call__ x rest = __call__ (PyList (x :: rest)) [].
Proof.
  intros Hrest Hx.
  rewrite (call_iterable (PyList (x :: rest)) (x :: rest)
             eq_refl eq_refl eq_refl).
  destruct Hx as [Hs | Hd].
  - now rewrite Hs, (call_more_str x rest Hrest Hs).
  - rewrite Hd, (call_more_dtype x rest Hrest Hd).
    destruct (is_polars_dtype_inv x Hd) as [d ->]. reflexivity.
Qed.

(** X9.  With a first argument that is neither a [str] nor a data type,
    both call shapes raise, but not with the same message: the
    positional one asks for a [str] or [DataType], the list one for an
    iterable of them. *)
Theorem invalid_first_item_two_messages (x : pyval) (rest : list pyval) :
  rest <> [] ->
  isinstance_str x = false -> is_polars_dtype x = false ->
  __call__ x rest = Raise (TypeError (msg_more_names x))
  /\ __call__ (PyList (x :: rest)) [] = Raise (TypeError (msg_iterable x))
  /\ msg_more_names x <> msg_iterable x.
Proof.
  intros Hrest Hs Hd. repeat split.
  - now apply call_more_other.
  - rewrite (call_iterable (PyList (x :: rest)) (x :: rest)
               eq_refl eq_refl eq_refl).
    now rewrite Hs, Hd.
  - unfold msg_more_names, msg_iterable. simpl. discriminate.
Qed.

(** X10.  A [str] is one name and is never unpacked: [col(s)] and
    [col(list(s))] stand for the same selector exactly when [s] is one
    character long. *)
Theorem str_is_one_name (s : string) :
  build (PyStr s) [] = build (PyList (str_chars s)) []
  <-> String.length s = 1.
Proof.
  assert (Hl : build (PyStr s) [] = Return (ByName [PyStr s]))
    by reflexivity.
  assert (Hr : build (PyList (str_chars s)) [] = Return (ByName (str_chars s))).
  { apply (build_Return _ _ (wrap_expr (plr_cols _))).
    rewrite (call_iterable (PyList (str_chars s)) (str_chars s)
               eq_refl eq_refl eq_refl).
    destruct s; reflexivity. }
  rewrite Hl, Hr. split.
  - intros H. injection H as H.
    destruct s as [| c s]; [discriminate H |].
    simpl in H. injection H as Hc Hn.
    symmetry in Hn. apply str_chars_nil in Hn. now subst s.
  - intros H. destruct s as [| c [| c' s]]; try discriminate H.
    reflexivity.
Qed.


(** X12.  Every message [__call__] raises starts with the same lines:
    [invalid input for `col`], an empty line, then [Expected]. *)
Theorem raised_message_prefix
  (name : pyval) (more_names : list pyval) (msg : string) :
  __call__ name more_names = Raise (TypeError msg) ->
  prefix ("invalid input for `col`" ++ LF ++ LF ++ "Expected ") msg = true.
Proof.
  call_branches name more_names; intros H; try discriminate H;
    injection H as <-; reflexivity.
Qed.

End ColumnFactory.

Arguments PyStr {DataType} s.
Arguments PyDtype {DataType} d.
Arguments PyInt {DataType} n.
Arguments PyNone {DataType}.
Arguments PyList {DataType} items.
Arguments PyTuple {DataType} items.
Arguments PyObject {DataType} cls iter.
Arguments isinstance_str {DataType} v.
Arguments is_polars_dtype {DataType} v.
Arguments iter_list {DataType} v.
Arguments type_name {DataType} dtype_type_name v.
Arguments plr_col {DataType} name.
Arguments plr_cols {DataType} names.
Arguments plr_dtype_cols {DataType} dtypes.
Arguments wrap_expr {DataType} _pyexpr.
Arguments msg_more_names {DataType} dtype_type_name name.
Arguments msg_iterable {DataType} dtype_type_name item.
Arguments msg_single {DataType} dtype_type_name name.
Arguments __call__ {DataType} dtype_type_name name more_names.
Arguments __getattr__ {DataType} name.
Arguments ByName {DataType} names.
Arguments ByType {DataType} types.
Arguments build {DataType} dtype_type_name primary extra.

(** ** The claims at the inputs of the docstring and of the spec's
    scenario *)

(** The text of the three messages, for an [int] and a generator. *)
Example msg_single_of_int :
  msg_single doc_dtype_type_name (PyInt 42)
  = "invalid input for `col`

Expected `str` or `DataType`, got 'int'".
Proof. reflexivity. Qed.

Example msg_more_names_of_list :
  msg_more_names doc_dtype_type_name (PyList [PyStr "foo"])
  = "invalid input for `col`

Expected `str` or `DataType`, got 'list'.".
Proof. reflexivity. Qed.

Example msg_iterable_of_none :
  __call__ doc_dtype_type_name (PyObject "generator" (Some [PyNone])) []
  = Raise (TypeError "invalid input for `col`

Expected iterable of type `str` or `DataType`, got iterable of type 'NoneType'").
Proof. reflexivity. Qed.

(** [col("hamburger", "foo")] and [col(["hamburger", "foo"])]. *)
Lemma names_positional_and_iterable_agree_witness :
  let S := [PyStr "hamburger"; PyStr "foo"] in
  (isinstance_str (DataType := DocDataType) (PyList S) = false
   /\ is_polars_dtype (PyList S) = false
   /\ iter_list (PyList S) = Some S)
  /\ build doc_dtype_type_name (PyStr "hamburger") [PyStr "foo"]
     = Return (ByName S)
  /\ build doc_dtype_type_name (PyList S) [] = Return (ByName S).
Proof.
  split; [repeat split |].
  exact (names_positional_and_iterable_agree DocDataType doc_dtype_type_name
           "hamburger" ["foo"] (PyList [PyStr "hamburger"; PyStr "foo"])
           eq_refl eq_refl eq_refl).
Defined.

(** [col("foo", "bar", "foo")]: the repeated name stays. *)
Lemma str_with_more_names_witness :
  [PyStr (DataType := DocDataType) "bar"; PyStr "foo"] <> []
  /\ __call__ doc_dtype_type_name (PyStr "foo") [PyStr "bar"; PyStr "foo"]
     = Return (wrap_expr (plr_cols [PyStr "foo"; PyStr "bar"; PyStr "foo"]))
  /\ build doc_dtype_type_name (PyStr "foo") [PyStr "bar"; PyStr "foo"]
     = Return (ByName [PyStr "foo"; PyStr "bar"; PyStr "foo"]).
Proof.
  split; [discriminate |].
  apply (str_with_more_names DocDataType doc_dtype_type_name
           "foo" [PyStr "bar"; PyStr "foo"]).
  discriminate.
Defined.

(** [col(pl.Int64, pl.Float64)] and [col((pl.Int64, pl.Float64))]. *)
Lemma dtypes_positional_and_iterable_agree_witness :
  let T := [PyDtype Int64; PyDtype Float64] in
  (isinstance_str (PyTuple T) = false
   /\ is_polars_dtype (PyTuple T) = false
   /\ iter_list (PyTuple T) = Some T)
  /\ __call__ doc_dtype_type_name (PyDtype Int64) [PyDtype Float64]
     = __call__ doc_dtype_type_name (PyTuple T) []
  /\ build doc_dtype_type_name (PyDtype Int64) [PyDtype Float64]
     = Return (ByType T)
  /\ build doc_dtype_type_name (PyTuple T) [] = Return (ByType T).
Proof.
  split; [repeat split |].
  exact (dtypes_positional_and_iterable_agree DocDataType doc_dtype_type_name
           Int64 [Float64] (PyTuple [PyDtype Int64; PyDtype Float64])
           eq_refl eq_refl eq_refl).
Defined.

(** [col([])]. *)
Lemma empty_iterable_selects_nothing_witness :
  (isinstance_str (DataType := DocDataType) (PyList []) = false
   /\ is_polars_dtype (DataType := DocDataType) (PyList []) = false
   /\ iter_list (DataType := DocDataType) (PyList []) = Some [])
  /\ __call__ doc_dtype_type_name (PyList []) []
     = Return (wrap_expr (plr_cols []))
  /\ build doc_dtype_type_name (PyList []) [] = Return (ByName []).
Proof.
  split; [repeat split |].
  exact (empty_iterable_selects_nothing DocDataType doc_dtype_type_name
           (PyList []) eq_refl eq_refl eq_refl).
Defined.

(** [col(["foo"], "bar")] and [col(42, "bar")]. *)
Lemma more_names_need_str_or_dtype_witness :
  ([PyStr (DataType := DocDataType) "bar"] <> []
   /\ isinstance_str (DataType := DocDataType) (PyInt 42) = false
   /\ is_polars_dtype (DataType := DocDataType) (PyInt 42) = false)
  /\ __call__ doc_dtype_type_name (PyInt 42) [PyStr "bar"]
     = Raise (TypeError (msg_more_names doc_dtype_type_name (PyInt 42)))
  /\ build doc_dtype_type_name (PyInt 42) [PyStr "bar"]
     = Raise (TypeError (msg_more_names doc_dtype_type_name (PyInt 42)))
  /\ build doc_dtype_type_name (PyList [PyStr "foo"]) [PyStr "bar"]
     = Raise (TypeError
                (msg_more_names doc_dtype_type_name (PyList [PyStr "foo"])))
  /\ mentions (msg_more_names doc_dtype_type_name (PyList [PyStr "foo"]))
       "'list'".
Proof.
  split; [repeat split; discriminate |].
  apply (more_names_need_str_or_dtype DocDataType doc_dtype_type_name
           (PyInt 42) [PyStr "bar"] [PyStr "foo"]).
  - discriminate.
  - reflexivity.
  - reflexivity.
Defined.

(** [col([42, "foo"])]. *)
Lemma iterable_first_item_invalid_witness :
  let v := PyList [PyInt 42; PyStr "foo"] in
  (isinstance_str (DataType := DocDataType) v = false
   /\ is_polars_dtype v = false
   /\ iter_list v = Some [PyInt 42; PyStr "foo"]
   /\ isinstance_str (DataType := DocDataType) (PyInt 42) = false
   /\ is_polars_dtype (DataType := DocDataType) (PyInt 42) = false)
  /\ __call__ doc_dtype_type_name v []
     = Raise (TypeError (msg_iterable doc_dtype_type_name (PyInt 42)))
  /\ build doc_dtype_type_name v []
     = Raise (TypeError (msg_iterable doc_dtype_type_name (PyInt 42)))
  /\ mentions (msg_iterable doc_dtype_type_name (PyInt 42)) "'int'".
Proof.
  split; [repeat split |].
  exact (iterable_first_item_invalid DocDataType doc_dtype_type_name
           (PyList [PyInt 42; PyStr "foo"]) (PyInt 42) [PyStr "foo"]
           eq_refl eq_refl eq_refl eq_refl eq_refl).
Defined.

(** [col(42)]. *)
Lemma single_argument_invalid_witness :
  (isinstance_str (DataType := DocDataType) (PyInt 42) = false
   /\ is_polars_dtype (DataType := DocDataType) (PyInt 42) = false
   /\ iter_list (DataType := DocDataType) (PyInt 42) = None)
  /\ __call__ doc_dtype_type_name (PyInt 42) []
     = Raise (TypeError (msg_single doc_dtype_type_name (PyInt 42)))
  /\ build doc_dtype_type_name (PyInt 42) []
     = Raise (TypeError (msg_single doc_dtype_type_name (PyInt 42)))
  /\ mentions (msg_single doc_dtype_type_name (PyInt 42)) "'int'".
Proof.
  split; [repeat split |].
  exact (single_argument_invalid DocDataType doc_dtype_type_name
           (PyInt 42) eq_refl eq_refl eq_refl).
Defined.

(** [col("foo", pl.Int64, 1)], [col(["foo", 42, None])] and
    [col((pl.Utf8, 42, None))]: later items of another kind. *)
Lemma first_item_decides_witness :
  let more := [PyDtype Int64; PyInt 1] in
  let rest := [PyInt 42; PyNone] in
  let v := PyList (PyStr "foo" :: rest) in
  let w := PyTuple (PyDtype Utf8 :: rest) in
  (more <> []
   /\ isinstance_str v = false /\ is_polars_dtype v = false
   /\ iter_list v = Some (PyStr "foo" :: rest)
   /\ isinstance_str w = false /\ is_polars_dtype w = false
   /\ iter_list w = Some (PyDtype Utf8 :: rest))
  /\ build doc_dtype_type_name (PyStr "foo") more
     = Return (ByName (PyStr "foo" :: more))
  /\ build doc_dtype_type_name v [] = Return (ByName (PyStr "foo" :: rest))
  /\ build doc_dtype_type_name w [] = Return (ByType (PyDtype Utf8 :: rest)).
Proof.
  split; [repeat split; discriminate |].
  apply (first_item_decides DocDataType doc_dtype_type_name
           "foo" Utf8 [PyDtype Int64; PyInt 1] [PyInt 42; PyNone]
           (PyList [PyStr "foo"; PyInt 42; PyNone])
           (PyTuple [PyDtype Utf8; PyInt 42; PyNone]));
    solve [discriminate | reflexivity].
Defined.

(** ** The further properties at concrete calls *)

(** [col(pl.Int64, "foo", pl.Float64)]. *)
Lemma dtype_with_more_names_witness :
  [PyStr "foo"; PyDtype Float64] <> []
  /\ __call__ doc_dtype_type_name (PyDtype Int64) [PyStr "foo"; PyDtype Float64]
     = Return (wrap_expr (plr_dtype_cols
                            [PyDtype Int64; PyStr "foo"; PyDtype Float64])).
Proof.
  split; [discriminate |].
  apply (dtype_with_more_names DocDataType doc_dtype_type_name
           Int64 [PyStr "foo"; PyDtype Float64]).
  discriminate.
Defined.

(** [col("foo")]. *)
Lemma plr_col_only_for_single_str_witness :
  __call__ doc_dtype_type_name (PyStr "foo") []
  = Return (wrap_expr (plr_col (PyStr "foo")))
  /\ ([] = @nil (pyval DocDataType)
      /\ PyStr "foo" = PyStr (DataType := DocDataType) "foo"
      /\ isinstance_str (DataType := DocDataType) (PyStr "foo") = true).
Proof.
  split; [reflexivity |].
  exact (plr_col_only_for_single_str DocDataType doc_dtype_type_name
           (PyStr "foo") (PyStr "foo") [] eq_refl).
Defined.

(** [col((pl.Utf8, 1))]. *)
Lemma dtype_cols_head_is_dtype_witness :
  __call__ doc_dtype_type_name (PyTuple [PyDtype Utf8; PyInt 1]) []
  = Return (wrap_expr (plr_dtype_cols [PyDtype Utf8; PyInt 1]))
  /\ exists d rest, [PyDtype Utf8; PyInt 1] = PyDtype d :: rest.
Proof.
  split; [reflexivity |].
  exact (dtype_cols_head_is_dtype DocDataType doc_dtype_type_name
           (PyTuple [PyDtype Utf8; PyInt 1]) [] [PyDtype Utf8; PyInt 1]
           eq_refl).
Defined.

(** [col("foo", 1)]. *)
Lemma cols_head_is_str_or_empty_witness :
  __call__ doc_dtype_type_name (PyStr "foo") [PyInt 1]
  = Return (wrap_expr (plr_cols [PyStr "foo"; PyInt 1]))
  /\ (([PyStr "foo"; PyInt 1] = @nil (pyval DocDataType)
       /\ [PyInt 1] = @nil (pyval DocDataType)
       /\ iter_list (DataType := DocDataType) (PyStr "foo") = Some [])
      \/ exists s rest,
           [PyStr (DataType := DocDataType) "foo"; PyInt 1]
           = PyStr s :: rest).
Proof.
  split; [reflexivity |].
  exact (cols_head_is_str_or_empty DocDataType doc_dtype_type_name
           (PyStr "foo") [PyInt 1] [PyStr "foo"; PyInt 1] eq_refl).
Defined.

(** [col(x for x in ("a", "b", "a"))]. *)
Lemma returned_list_is_the_input_witness :
  let l := [PyStr "a"; PyStr "b"; PyStr "a"] in
  let g := PyObject "generator" (Some l) in
  __call__ doc_dtype_type_name g [] = Return (wrap_expr (plr_cols l))
  /\ ((@nil (pyval DocDataType) <> [] /\ l = [g])
      \/ ([] = @nil (pyval DocDataType)
          /\ (l = [g] \/ iter_list g = Some l))).
Proof.
  split; [reflexivity |].
  exact (returned_list_is_the_input DocDataType doc_dtype_type_name
           (PyObject "generator" (Some [PyStr "a"; PyStr "b"; PyStr "a"]))
           [] [PyStr "a"; PyStr "b"; PyStr "a"] (or_introl eq_refl)).
Defined.

(** [col(["a", 1])] and [col(("a", 1))]. *)
Lemma iterable_kind_irrelevant_witness :
  let items := [PyStr "a"; PyInt 1] in
  (isinstance_str (DataType := DocDataType) (PyList items) = false
   /\ is_polars_dtype (PyList items) = false
   /\ iter_list (PyList items) = Some items
   /\ isinstance_str (PyTuple items) = false
   /\ is_polars_dtype (PyTuple items) = false
   /\ iter_list (PyTuple items) = Some items)
  /\ __call__ doc_dtype_type_name (PyList items) []
     = __call__ doc_dtype_type_name (PyTuple items) [].
Proof.
  split; [repeat split |].
  exact (iterable_kind_irrelevant DocDataType doc_dtype_type_name
           (PyList [PyStr "a"; PyInt 1]) (PyTuple [PyStr "a"; PyInt 1])
           [PyStr "a"; PyInt 1]
           eq_refl eq_refl eq_refl eq_refl eq_refl eq_refl).
Defined.

(** [col("foo", pl.Int64)] and [col(["foo", pl.Int64])]. *)
Lemma positional_and_list_same_native_call_witness :
  ([PyDtype Int64] <> []
   /\ (isinstance_str (DataType := DocDataType) (PyStr "foo") = true
       \/ is_polars_dtype (DataType := DocDataType) (PyStr "foo") = true))
  /\ __call__ doc_dtype_type_name (PyStr "foo") [PyDtype Int64]
     = __call__ doc_dtype_type_name (PyList [PyStr "foo"; PyDtype Int64]) [].
Proof.
  split; [split; [discriminate | left; reflexivity] |].
  apply (positional_and_list_same_native_call DocDataType doc_dtype_type_name
           (PyStr "foo") [PyDtype Int64]).
  - discriminate.
  - left; reflexivity.
Defined.

(** [col(42, "bar")] and [col([42, "bar"])]. *)
Lemma invalid_first_item_two_messages_witness :
  ([PyStr (DataType := DocDataType) "bar"] <> []
   /\ isinstance_str (DataType := DocDataType) (PyInt 42) = false
   /\ is_polars_dtype (DataType := DocDataType) (PyInt 42) = false)
  /\ __call__ doc_dtype_type_name (PyInt 42) [PyStr "bar"]
     = Raise (TypeError (msg_more_names doc_dtype_type_name (PyInt 42)))
  /\ __call__ doc_dtype_type_name (PyList [PyInt 42; PyStr "bar"]) []
     = Raise (TypeError (msg_iterable doc_dtype_type_name (PyInt 42)))
  /\ msg_more_names doc_dtype_type_name (PyInt 42)
     <> msg_iterable doc_dtype_type_name (PyInt 42).
Proof.
  split; [repeat split; discriminate |].
  apply (invalid_first_item_two_messages DocDataType doc_dtype_type_name
           (PyInt 42) [PyStr "bar"]).
  - discriminate.
  - reflexivity.
  - reflexivity.
Defined.

(** [col(None)]. *)
Lemma raised_message_prefix_witness :
  __call__ doc_dtype_type_name PyNone []
  = Raise (TypeError (msg_single doc_dtype_type_name PyNone))
  /\ prefix ("invalid input for `col`" ++ LF ++ LF ++ "Expected ")
       (msg_single doc_dtype_type_name PyNone) = true.
Proof.
  split; [reflexivity |].
  exact (raised_message_prefix DocDataType doc_dtype_type_name
           PyNone [] _ eq_refl).
Defined.
